(** * bocadillo/error_handlers.py: built-in error handlers

    A shallow embedding of the error-to-response layer of Bocadillo:
    the three built-in error handlers ([error_to_html], [error_to_media],
    [error_to_text]), the recursive helper [_to_res] and the decorator
    [convert_exception_to_response].

    Python objects that are mutated in place (the response) are threaded
    explicitly; raising is an [Outcome]; the two observable actions of the
    layer (calling the error handler, printing the traceback) are recorded
    in an event log. *)

From Stdlib Require Import ZArith String Ascii List Lia.
From stdpp Require Import gmap strings list fin_maps.
From Equations Require Import Equations.

Local Open Scope string_scope.
Local Open Scope Z_scope.

(** ** Collaborators of the module *)

(** Modelled from the spec: [Request] is declared in bocadillo/request.py,
    which is not part of the sources at hand.  No error handler reads any
    of its fields; it is only handed on to [Response] and to the handler. *)
Record Request := mkRequest { req_method : string; req_path : string }.

(** The keyword arguments forwarded verbatim to the [Response] constructor. *)
Definition Kwargs := list (string * string).

Module HTTPError.
(** Modelled from the spec: [HTTPError] is declared in
    bocadillo/exceptions.py, which is not part of the sources at hand.
    The handlers read exactly three attributes of it: [status_code]
    (an integer), [title] (a string) and [detail] (optional). *)
Record t := mk { status_code : Z; title : string; detail : option string }.
End HTTPError.

(** Modelled from the spec: the title that [HTTPError(status)] gives to an
    error built from a status code alone (the "generic title") comes from
    bocadillo/exceptions.py; it is a parameter of the development. *)
Class StatusTitles := status_title : Z -> string.

(** Modelled from the spec: [HTTPError(status)], the constructor called
    with a status code only: generic title, no detail. *)
Definition HTTPError_new `{titles : StatusTitles} (status : Z) : HTTPError.t :=
  HTTPError.mk status (status_title status) None.

(** What [except Exception] can and cannot catch. *)
Inductive PyException :=
| ExcHTTPError (e : HTTPError.t)   (* isinstance(exc, HTTPError) *)
| ExcOther (cls : string)          (* any other subclass of Exception *)
| ExcBase (cls : string).          (* BaseException outside Exception *)

Definition is_Exception (exc : PyException) : bool :=
  match exc with
  | ExcHTTPError _ | ExcOther _ => true
  | ExcBase _ => false
  end.

Definition isinstance_HTTPError (exc : PyException) : bool :=
  match exc with
  | ExcHTTPError _ => true
  | _ => false
  end.

(** Values stored in the dict built by [error_to_media]. *)
Inductive MediaValue :=
| MStr (s : string)
| MInt (n : Z).

Inductive Body :=
| NoBody
| HtmlBody (html : string)
| MediaBody (media : gmap string MediaValue)
| TextBody (text : string).

Module Response.
(** Modelled from the spec: [Response] is declared in
    bocadillo/response.py, which is not part of the sources at hand.
    It supports assignment of [status_code] and three body setters
    ([html], [media], [text]); a fresh response has neither. *)
Record t := mk
  { request : Request;
    kwargs : Kwargs;
    status_code : option Z;
    body : Body }.

(** [Response(req, **kwargs)] *)
Definition new (req : Request) (kw : Kwargs) : t := mk req kw None NoBody.

(** [res.status_code = n] *)
Definition set_status_code (n : Z) (res : t) : t :=
  mk (request res) (kwargs res) (Some n) (body res).

(** [res.html = s], [res.media = m], [res.text = s] *)
Definition set_body (b : Body) (res : t) : t :=
  mk (request res) (kwargs res) (status_code res) b.
Definition set_html (s : string) := set_body (HtmlBody s).
Definition set_media (m : gmap string MediaValue) := set_body (MediaBody m).
Definition set_text (s : string) := set_body (TextBody s).
End Response.

(** ** Effects *)

(** A call either returns or raises. *)
Inductive Outcome (A : Type) :=
| Returned (a : A)
| Raised (exc : PyException).
Arguments Returned {A} a.
Arguments Raised {A} exc.

(** What the layer does that an observer can count. *)
Inductive Event :=
| EvErrorHandler (exc : HTTPError.t)   (* error_handler(req, res, exc) was called *)
| EvPrintExc.                          (* traceback.print_exc() *)

(** Log of the events so far, then the outcome. *)
Definition Eff (A : Type) : Type := list Event * Outcome A.

Definition ret {A} (a : A) : Eff A := ([], Returned a).

Definition raise {A} (exc : PyException) : Eff A := ([], Raised exc).

Definition bind {A B} (m : Eff A) (k : A -> Eff B) : Eff B :=
  match m with
  | (log, Returned a) => let '(log', r) := k a in ((log ++ log')%list, r)
  | (log, Raised exc) => (log, Raised exc)
  end.

Definition emit (ev : Event) : Eff unit := ([ev], Returned tt).

Notation "x <- m ;; k" := (bind m (fun x => k))
  (at level 100, m at next level, right associativity).
Notation "m ;;; k" := (bind m (fun _ => k))
  (at level 100, right associativity).

Definition is_print_exc (ev : Event) : bool :=
  match ev with EvPrintExc => true | _ => false end.

Definition is_handler_call (ev : Event) : bool :=
  match ev with EvErrorHandler _ => true | _ => false end.

(** Number of tracebacks printed, number of error handler calls. *)
Definition traces (log : list Event) : nat :=
  length (List.filter is_print_exc log).

Definition handler_calls (log : list Event) : nat :=
  length (List.filter is_handler_call log).

(** ** The built-in error handlers *)

(** Python truthiness of [exc.detail]: [None] and the empty string are
    both false. *)
Definition truthy (d : option string) : bool :=
  match d with
  | Some (String _ _) => true
  | _ => false
  end.

(** [f"{exc.detail}"] on a truthy detail. *)
Definition detail_text (d : option string) : string := default "" d.

Definition NL : string := String (ascii_of_nat 10) "".

(** [ErrorHandler = Callable[[Request, Response, Exception], None]]: the
    handler mutates [res]; here it returns the mutated response, or raises. *)
Definition ErrorHandler : Type :=
  Request -> Response.t -> HTTPError.t -> Outcome Response.t.

Definition error_to_html : ErrorHandler := fun req res exc =>
  let res := Response.set_status_code (HTTPError.status_code exc) res in
  let html := "<h1>" +:+ HTTPError.title exc +:+ "</h1>" in
  let html :=
    if truthy (HTTPError.detail exc)
    then html +:+ (NL +:+ "<p>" +:+ detail_text (HTTPError.detail exc) +:+ "</p>")
    else html in
  Returned (Response.set_html html res).

Definition error_to_media : ErrorHandler := fun req res exc =>
  let res := Response.set_status_code (HTTPError.status_code exc) res in
  let media : gmap string MediaValue :=
    <["status" := MInt (HTTPError.status_code exc)]>
      (<["error" := MStr (HTTPError.title exc)]> ∅) in
  let media :=
    if truthy (HTTPError.detail exc)
    then <["detail" := MStr (detail_text (HTTPError.detail exc))]> media
    else media in
  Returned (Response.set_media media res).

Definition error_to_text : ErrorHandler := fun req res exc =>
  let res := Response.set_status_code (HTTPError.status_code exc) res in
  let text := HTTPError.title exc in
  let text :=
    if truthy (HTTPError.detail exc)
    then text +:+ (NL +:+ detail_text (HTTPError.detail exc))
    else text in
  Returned (Response.set_text text res).

(** ** [_to_res] and [convert_exception_to_response] *)

(** [error_handler(req, res, exc)], logged. *)
Definition call_handler (error_handler : ErrorHandler)
    (req : Request) (res : Response.t) (exc : HTTPError.t) : Eff Response.t :=
  ([EvErrorHandler exc], error_handler req res exc).

Definition print_exc : Eff unit := emit EvPrintExc.

(** The recursion of [_to_res] is not structural: the [else] branch calls
    [_to_res] again on a freshly built [HTTPError(500)].  It terminates
    because that second exception is an [HTTPError]. *)
Definition exc_rank (exc : PyException) : nat :=
  if isinstance_HTTPError exc then 0%nat else 1%nat.

Equations _to_res `{titles : StatusTitles} (req : Request) (exc : PyException)
    (error_handler : ErrorHandler) (kwargs : Kwargs) : Eff Response.t
    by wf (exc_rank exc) lt :=
  _to_res req (ExcHTTPError e) error_handler kwargs :=
    let res := Response.new req kwargs in
    res <- call_handler error_handler req res e ;;
    (if HTTPError.status_code e =? 500 then print_exc else ret tt) ;;;
    ret res;
  _to_res req exc error_handler kwargs :=
    _to_res req (ExcHTTPError (HTTPError_new 500)) error_handler kwargs.

(** A request handler: returns a response or raises. *)
Definition Dispatch : Type := Request -> Outcome Response.t.

(** The coroutine [inner] of [convert_exception_to_response]. *)
Definition inner `{titles : StatusTitles} (dispatch : Dispatch)
    (error_handler : ErrorHandler) (kwargs : Kwargs)
    (req : Request) : Eff Response.t :=
  match dispatch req with
  | Returned res => ret res
  | Raised exc =>
      if is_Exception exc
      then _to_res req exc error_handler kwargs
      else raise exc
  end.

Definition convert_exception_to_response `{titles : StatusTitles} (dispatch : Dispatch)
    (error_handler : option ErrorHandler) (kwargs : Kwargs)
    : Request -> Eff Response.t :=
  let error_handler :=
    match error_handler with
    | None => error_to_text
    | Some h => h
    end in
  inner dispatch error_handler kwargs.

(** The structured error that ends up in the hands of the error handler:
    the exception itself when it is an [HTTPError], [HTTPError(500)]
    otherwise. *)
Definition as_http_error `{titles : StatusTitles} (exc : PyException)
    : HTTPError.t :=
  match exc with
  | ExcHTTPError e => e
  | _ => HTTPError_new 500
  end.

(** ** The flattened variant discussed in the design notes

    Follows the words of the specification, not the source: a single
    non-recursive branch that first settles which structured error is at
    hand, then builds the response, applies the formatter, and logs when
    the status is 500. *)
Definition _to_res_flat `{titles : StatusTitles} (req : Request)
    (exc : PyException) (error_handler : ErrorHandler) (kwargs : Kwargs)
    : Eff Response.t :=
  let http_exc := as_http_error exc in
  let res := Response.new req kwargs in
  res <- call_handler error_handler req res http_exc ;;
  (if HTTPError.status_code http_exc =? 500 then print_exc else ret tt) ;;;
  ret res.

(** ** The encodings as the specification words them *)

(** [<h1>{title}</h1>], then [<p>{detail}</p>] on a line of its own. *)
Definition html_encoding (title : string) (detail : option string) : string :=
  match detail with
  | Some (String _ _ as d) => "<h1>" +:+ title +:+ "</h1>" +:+ NL +:+ "<p>" +:+ d +:+ "</p>"
  | _ => "<h1>" +:+ title +:+ "</h1>"
  end.

(** [{"error": title, "status": status_code}], plus a ["detail"] key. *)
Definition media_encoding (status : Z) (title : string)
    (detail : option string) : gmap string MediaValue :=
  match detail with
  | Some (String _ _ as d) =>
      {[ "error" := MStr title; "status" := MInt status; "detail" := MStr d ]}
  | _ => {[ "error" := MStr title; "status" := MInt status ]}
  end.

(** [title], then a newline and [detail]. *)
Definition text_encoding (title : string) (detail : option string) : string :=
  match detail with
  | Some (String _ _ as d) => title +:+ NL +:+ d
  | _ => title
  end.

(** ** Contracts an error handler may or may not honour *)

(** The handler never raises. *)
Definition handler_returns (h : ErrorHandler) : Prop :=
  forall req res exc, exists res', h req res exc = Returned res'.

(** The handler never raises and leaves [res.status_code == exc.status_code]. *)
Definition handler_sets_status (h : ErrorHandler) : Prop :=
  forall req res exc, exists res',
    h req res exc = Returned res' /\
    Response.status_code res' = Some (HTTPError.status_code exc).

Definition builtin_handlers : list ErrorHandler :=
  [error_to_html; error_to_media; error_to_text].

(** ** Concrete collaborators used in the examples *)

Definition demo_titles : StatusTitles := fun _ => "Internal Server Error".

Definition demo_req : Request := mkRequest "GET" "/items/7".

(** [def dispatch(req): raise exc] *)
Definition raising_dispatch (exc : PyException) : Dispatch :=
  fun _ => Raised exc.

(** A user-supplied handler with a bug of its own:
    [def handler(req, res, exc): raise TypeError] *)
Definition broken_handler : ErrorHandler :=
  fun _ _ _ => Raised (ExcOther "TypeError").

(** A user-supplied handler that answers every error with one fixed page:
    [res.status_code = 418; res.text = "teapot"] *)
Definition teapot_handler : ErrorHandler :=
  fun _ res _ =>
    Returned (Response.set_text "teapot" (Response.set_status_code 418 res)).

Definition not_found : HTTPError.t := HTTPError.mk 404 "Not Found" None.
Definition bad_request : HTTPError.t :=
  HTTPError.mk 400 "Bad Request" (Some "missing field x").
Definition forbidden : HTTPError.t := HTTPError.mk 403 "Forbidden" None.

(** [def dispatch(req): return res] *)
Definition returning_dispatch (res : Response.t) : Dispatch :=
  fun _ => Returned res.

Definition server_error : HTTPError.t :=
  HTTPError.mk 500 "Internal Server Error" (Some "database is down").

(** ** Wrapping a wrapped handler

    [inner] has the signature of the handler it wraps, so it can be handed
    to [convert_exception_to_response] again.  Seen as a [dispatch], a
    wrapped handler is its outcome; the events are those of the layer that
    produced them. *)
Definition as_dispatch (handler : Request -> Eff Response.t) : Dispatch :=
  fun req => snd (handler req).

(** The part of [exc.detail] that the handlers look at: a falsy detail is
    never rendered. *)
Definition rendered_detail (d : option string) : option string :=
  if truthy d then d else None.

(** * Properties *)

(** ** Strings *)

Lemma append_assoc (a b c : string) : (a +:+ b) +:+ c = a +:+ (b +:+ c).
Proof.
  induction a as [|ch a IH]; [reflexivity|].
  change (String ch ((a +:+ b) +:+ c) = String ch (a +:+ (b +:+ c))).
  now rewrite IH.
Qed.

Lemma truthy_Some_nonempty (d : option string) :
  truthy d = true <-> exists ch s, d = Some (String ch s).
Proof.
  split.
  - destruct d as [[|ch s]|]; simpl; try discriminate. eauto.
  - intros (ch & s & ->). reflexivity.
Qed.

(** ** The built-in handlers honour both contracts *)

Lemma sets_status_returns (h : ErrorHandler) :
  handler_sets_status h -> handler_returns h.
Proof.
  intros Hs req res exc. destruct (Hs req res exc) as (res' & Hr & _). eauto.
Qed.

Lemma error_to_html_sets_status : handler_sets_status error_to_html.
Proof. intros req res exc. eexists. split; reflexivity. Qed.

Lemma error_to_media_sets_status : handler_sets_status error_to_media.
Proof. intros req res exc. eexists. split; reflexivity. Qed.

Lemma error_to_text_sets_status : handler_sets_status error_to_text.
Proof. intros req res exc. eexists. split; reflexivity. Qed.

Lemma builtin_handlers_set_status :
  Forall handler_sets_status builtin_handlers.
Proof.
  repeat constructor;
    auto using error_to_html_sets_status, error_to_media_sets_status,
      error_to_text_sets_status.
Qed.

(** ** What [_to_res] does, case by case *)

Section ToRes.
Context `{titles : StatusTitles}.
Variables (req : Request) (error_handler : ErrorHandler) (kwargs : Kwargs).

(** The [if] branch when the handler returns. *)
Lemma _to_res_http_returned (e : HTTPError.t) (res' : Response.t) :
  error_handler req (Response.new req kwargs) e = Returned res' ->
  _to_res req (ExcHTTPError e) error_handler kwargs =
    (EvErrorHandler e ::
       (if HTTPError.status_code e =? 500 then [EvPrintExc] else []),
     Returned res').
Proof.
  intros Hh. simp _to_res. unfold call_handler, bind. rewrite Hh.
  destruct (HTTPError.status_code e =? 500); reflexivity.
Qed.

(** The [if] branch when the handler raises: the exception leaves
    [_to_res] before [traceback.print_exc()] is reached. *)
Lemma _to_res_http_raised (e : HTTPError.t) (x : PyException) :
  error_handler req (Response.new req kwargs) e = Raised x ->
  _to_res req (ExcHTTPError e) error_handler kwargs =
    ([EvErrorHandler e], Raised x).
Proof.
  intros Hh. simp _to_res. unfold call_handler, bind. now rewrite Hh.
Qed.

(** The [else] branch lands in the [if] branch after one more call. *)
Lemma _to_res_as_http_error (exc : PyException) :
  _to_res req exc error_handler kwargs =
  _to_res req (ExcHTTPError (as_http_error exc)) error_handler kwargs.
Proof.
  funelim (_to_res req exc error_handler kwargs); simp _to_res; reflexivity.
Qed.

(** The handler is called exactly once, whatever it does. *)
Lemma _to_res_calls_handler_once (exc : PyException) :
  List.filter is_handler_call (fst (_to_res req exc error_handler kwargs)) =
    [EvErrorHandler (as_http_error exc)].
Proof.
  rewrite _to_res_as_http_error.
  destruct (error_handler req (Response.new req kwargs) (as_http_error exc))
    as [res'|x] eqn:Hh.
  - rewrite (_to_res_http_returned _ _ Hh). simpl.
    destruct (HTTPError.status_code (as_http_error exc) =? 500); reflexivity.
  - rewrite (_to_res_http_raised _ _ Hh). reflexivity.
Qed.

(** No traceback is printed for a status other than 500. *)
Lemma _to_res_quiet (e : HTTPError.t) :
  HTTPError.status_code e <> 500 ->
  traces (fst (_to_res req (ExcHTTPError e) error_handler kwargs)) = 0%nat.
Proof.
  intros Hne. apply Z.eqb_neq in Hne.
  destruct (error_handler req (Response.new req kwargs) e) as [res'|x] eqn:Hh.
  - rewrite (_to_res_http_returned _ _ Hh), Hne. reflexivity.
  - rewrite (_to_res_http_raised _ _ Hh). reflexivity.
Qed.
End ToRes.

(** ** [inner] *)

Section Inner.
Context `{titles : StatusTitles}.
Variables (dispatch : Dispatch) (kwargs : Kwargs) (req : Request).

Lemma convert_unfold (error_handler : option ErrorHandler) :
  convert_exception_to_response dispatch error_handler kwargs req =
  inner dispatch (default error_to_text error_handler) kwargs req.
Proof. destruct error_handler; reflexivity. Qed.

Lemma inner_caught (h : ErrorHandler) (exc : PyException) :
  dispatch req = Raised exc -> is_Exception exc = true ->
  inner dispatch h kwargs req =
  _to_res req (ExcHTTPError (as_http_error exc)) h kwargs.
Proof.
  intros Hd Hc. unfold inner. rewrite Hd, Hc. apply _to_res_as_http_error.
Qed.

Lemma inner_not_caught (h : ErrorHandler) (exc : PyException) :
  dispatch req = Raised exc -> is_Exception exc = false ->
  inner dispatch h kwargs req = ([], Raised exc).
Proof. intros Hd Hc. unfold inner. now rewrite Hd, Hc. Qed.

(** Full containment: with a handler that returns, the only exceptions
    that leave [inner] are those [except Exception] does not catch. *)
Lemma inner_contains (h : ErrorHandler) :
  handler_returns h ->
  (exists res, snd (inner dispatch h kwargs req) = Returned res) \/
  (exists exc, dispatch req = Raised exc /\ is_Exception exc = false /\
               inner dispatch h kwargs req = ([], Raised exc)).
Proof.
  intros Hret. destruct (dispatch req) as [res|exc] eqn:Hd.
  - left. exists res. unfold inner. now rewrite Hd.
  - destruct (is_Exception exc) eqn:Hc.
    + left. rewrite (inner_caught h exc Hd Hc).
      destruct (Hret req (Response.new req kwargs) (as_http_error exc))
        as (res' & Hh).
      rewrite (_to_res_http_returned _ _ _ _ _ Hh). eauto.
    + right. exists exc. auto using inner_not_caught.
Qed.
End Inner.

(** ** Containment *)

(** Containment as far as the code provides it: an exception that
    [except Exception] catches is turned into a response whenever the
    error handler itself returns. *)
Theorem wrapped_handler_returns `{titles : StatusTitles}
    (dispatch : Dispatch) (error_handler : option ErrorHandler)
    (kwargs : Kwargs) (req : Request) (exc : PyException) :
  handler_returns (default error_to_text error_handler) ->
  dispatch req = Raised exc ->
  is_Exception exc = true ->
  exists res,
    snd (convert_exception_to_response dispatch error_handler kwargs req) =
      Returned res.
Proof.
  intros Hret Hd Hc. rewrite convert_unfold.
  destruct (inner_contains dispatch kwargs req _ Hret)
    as [Hres | (exc' & Hd' & Hc' & _)]; [exact Hres|].
  congruence.
Qed.

Lemma wrapped_handler_returns_witness :
  exists res,
    snd (convert_exception_to_response (titles := demo_titles)
           (raising_dispatch (ExcOther "ValueError")) None [] demo_req) =
      Returned res.
Proof.
  apply (wrapped_handler_returns (titles := demo_titles)
           (raising_dispatch (ExcOther "ValueError")) None [] demo_req
           (ExcOther "ValueError")).
  - intros rq rs e. eexists. reflexivity.
  - reflexivity.
  - reflexivity.
Defined.

(** With the default handler and with each built-in one no hypothesis is
    left: every caught exception becomes a response. *)
Lemma wrapped_handler_returns_builtin `{titles : StatusTitles}
    (dispatch : Dispatch) (kwargs : Kwargs) (req : Request)
    (exc : PyException) (error_handler : option ErrorHandler) :
  error_handler = None \/
    (exists h, error_handler = Some h /\ In h builtin_handlers) ->
  dispatch req = Raised exc ->
  is_Exception exc = true ->
  exists res,
    snd (convert_exception_to_response dispatch error_handler kwargs req) =
      Returned res.
Proof.
  intros Hh Hd Hc.
  assert (Hret : handler_returns (default error_to_text error_handler)).
  { apply sets_status_returns.
    destruct Hh as [-> | (h & -> & Hin)]; simpl.
    - apply error_to_text_sets_status.
    - pose proof builtin_handlers_set_status as Hall.
      rewrite Forall_forall in Hall. apply Hall. now apply list_elem_of_In. }
  rewrite convert_unfold.
  destruct (inner_contains dispatch kwargs req _ Hret)
    as [Hres | (exc' & Hd' & Hc' & _)]; [exact Hres | congruence].
Qed.

(** C1.  The wrapped handler is documented "to always return an HTTP
    response", and the call of [dispatch] is guarded to that end; the call
    of the error handler inside the [except] block is not.  Here the inner
    handler raises an [HTTPError] 404, which [except Exception] catches,
    the error handler raises [TypeError], and the wrapped handler raises
    that exception where the claim promises a response. *)
Lemma broken_handler_escapes :
  raising_dispatch (ExcHTTPError not_found) demo_req =
    Raised (ExcHTTPError not_found) /\
  is_Exception (ExcHTTPError not_found) = true /\
  convert_exception_to_response (titles := demo_titles)
    (raising_dispatch (ExcHTTPError not_found)) (Some broken_handler) []
    demo_req = ([EvErrorHandler not_found], Raised (ExcOther "TypeError")) /\
  ~ exists res,
      snd (convert_exception_to_response (titles := demo_titles)
             (raising_dispatch (ExcHTTPError not_found))
             (Some broken_handler) [] demo_req) = Returned res.
Proof.
  repeat split; try reflexivity.
  intros (res & Hres). discriminate Hres.
Qed.

(** ** Unknown errors *)

(** C2, as amended.  For every exception caught by [except Exception]
    that is not an [HTTPError], and an error handler that returns with
    [res.status_code] set to [exc.status_code] (the default and the three
    built-in ones), the wrapped handler returns a response with status
    code 500 and the traceback is printed exactly once. *)
Theorem unknown_error_is_500_traced_once `{titles : StatusTitles}
    (dispatch : Dispatch) (error_handler : option ErrorHandler)
    (kwargs : Kwargs) (req : Request) (cls : string) :
  handler_sets_status (default error_to_text error_handler) ->
  dispatch req = Raised (ExcOther cls) ->
  exists res,
    convert_exception_to_response dispatch error_handler kwargs req =
      ([EvErrorHandler (HTTPError_new 500); EvPrintExc], Returned res) /\
    Response.status_code res = Some 500 /\
    traces (fst (convert_exception_to_response dispatch error_handler
                   kwargs req)) = 1%nat.
Proof.
  intros Hs Hd. rewrite convert_unfold.
  rewrite (inner_caught dispatch kwargs req _ (ExcOther cls) Hd eq_refl).
  destruct (Hs req (Response.new req kwargs) (as_http_error (ExcOther cls)))
    as (res & Hh & Hst).
  rewrite (_to_res_http_returned _ _ _ _ _ Hh).
  exists res. repeat split; assumption || reflexivity.
Qed.

Lemma unknown_error_is_500_traced_once_witness :
  exists res,
    convert_exception_to_response (titles := demo_titles)
      (raising_dispatch (ExcOther "KeyError")) (Some error_to_html) []
      demo_req =
      ([EvErrorHandler (HTTPError_new (titles := demo_titles) 500); EvPrintExc], Returned res) /\
    Response.status_code res = Some 500 /\
    traces (fst (convert_exception_to_response (titles := demo_titles)
                   (raising_dispatch (ExcOther "KeyError"))
                   (Some error_to_html) [] demo_req)) = 1%nat.
Proof.
  apply (unknown_error_is_500_traced_once (titles := demo_titles)
           (raising_dispatch (ExcOther "KeyError")) (Some error_to_html) []
           demo_req "KeyError").
  - intros rq rs e. eexists. split; reflexivity.
  - reflexivity.
Defined.

(** C2, as stated, fails twice over.  The status of the response is
    whatever the error handler makes it, and an exception outside the
    [Exception] hierarchy is not caught at all: no response, no traceback. *)
Lemma unknown_error_not_always_500 :
  (exists res,
     convert_exception_to_response (titles := demo_titles)
       (raising_dispatch (ExcOther "ValueError")) (Some teapot_handler) []
       demo_req =
       ([EvErrorHandler (HTTPError_new (titles := demo_titles) 500); EvPrintExc], Returned res) /\
     Response.status_code res = Some 418) /\
  isinstance_HTTPError (ExcBase "KeyboardInterrupt") = false /\
  convert_exception_to_response (titles := demo_titles)
    (raising_dispatch (ExcBase "KeyboardInterrupt")) None [] demo_req =
    ([], Raised (ExcBase "KeyboardInterrupt")).
Proof.
  split; [|split; reflexivity].
  exists (Response.mk demo_req [] (Some 418) (TextBody "teapot")).
  split; reflexivity.
Qed.

(** ** Known errors *)

(** No traceback for an [HTTPError] other than a 500, whatever the error
    handler does. *)
Lemma http_error_not_500_never_traced `{titles : StatusTitles}
    (dispatch : Dispatch) (error_handler : option ErrorHandler)
    (kwargs : Kwargs) (req : Request) (E : HTTPError.t) :
  dispatch req = Raised (ExcHTTPError E) ->
  HTTPError.status_code E <> 500 ->
  traces (fst (convert_exception_to_response dispatch error_handler
                 kwargs req)) = 0%nat.
Proof.
  intros Hd Hne. rewrite convert_unfold.
  rewrite (inner_caught dispatch kwargs req _ _ Hd eq_refl).
  now apply _to_res_quiet.
Qed.

(** C3, as amended.  For every [HTTPError] E with a status code other
    than 500 raised by the inner handler, and an error handler that
    returns with [res.status_code] set to [exc.status_code] (the default
    and the three built-in ones), the wrapped handler returns a response
    whose status code is that of E, and no traceback is printed. *)
Theorem http_error_status_is_kept `{titles : StatusTitles}
    (dispatch : Dispatch) (error_handler : option ErrorHandler)
    (kwargs : Kwargs) (req : Request) (E : HTTPError.t) :
  handler_sets_status (default error_to_text error_handler) ->
  dispatch req = Raised (ExcHTTPError E) ->
  HTTPError.status_code E <> 500 ->
  exists res,
    convert_exception_to_response dispatch error_handler kwargs req =
      ([EvErrorHandler E], Returned res) /\
    Response.status_code res = Some (HTTPError.status_code E) /\
    traces (fst (convert_exception_to_response dispatch error_handler
                   kwargs req)) = 0%nat.
Proof.
  intros Hs Hd Hne.
  pose proof (http_error_not_500_never_traced _ error_handler kwargs _ _ Hd Hne)
    as Hquiet.
  rewrite convert_unfold in *.
  rewrite (inner_caught dispatch kwargs req _ _ Hd eq_refl) in *.
  destruct (Hs req (Response.new req kwargs) E) as (res & Hh & Hst).
  simpl as_http_error in *.
  rewrite (_to_res_http_returned _ _ _ _ _ Hh) in *.
  apply Z.eqb_neq in Hne. rewrite Hne in *.
  exists res. repeat split; assumption || reflexivity.
Qed.

Lemma http_error_status_is_kept_witness :
  exists res,
    convert_exception_to_response (titles := demo_titles)
      (raising_dispatch (ExcHTTPError bad_request)) (Some error_to_media) []
      demo_req = ([EvErrorHandler bad_request], Returned res) /\
    Response.status_code res = Some 400 /\
    traces (fst (convert_exception_to_response (titles := demo_titles)
                   (raising_dispatch (ExcHTTPError bad_request))
                   (Some error_to_media) [] demo_req)) = 0%nat.
Proof.
  apply (http_error_status_is_kept (titles := demo_titles)
           (raising_dispatch (ExcHTTPError bad_request))
           (Some error_to_media) [] demo_req bad_request).
  - intros rq rs e. eexists. split; reflexivity.
  - reflexivity.
  - simpl. lia.
Defined.

(** C3, as stated, fails: the status of the response is the one the error
    handler chooses, here 418 for a 404. *)
Lemma http_error_status_not_always_kept :
  HTTPError.status_code not_found = 404 /\
  exists res,
    convert_exception_to_response (titles := demo_titles)
      (raising_dispatch (ExcHTTPError not_found)) (Some teapot_handler) []
      demo_req = ([EvErrorHandler not_found], Returned res) /\
    Response.status_code res = Some 418.
Proof.
  split; [reflexivity|].
  exists (Response.mk demo_req [] (Some 418) (TextBody "teapot")).
  split; reflexivity.
Qed.

(** ** One formatter call per error *)

(** C4, as amended.  For every request whose inner handler raised an
    exception that [except Exception] catches, the error handler is
    called exactly once, on the structured error; and with any of the
    three built-in formatters the status code of the response is that of
    the structured error. *)
Theorem one_formatter_call_per_error `{titles : StatusTitles}
    (dispatch : Dispatch) (error_handler : option ErrorHandler)
    (kwargs : Kwargs) (req : Request) (exc : PyException) :
  dispatch req = Raised exc ->
  is_Exception exc = true ->
  handler_calls
    (fst (convert_exception_to_response dispatch error_handler kwargs req)) =
    1%nat /\
  List.filter is_handler_call
    (fst (convert_exception_to_response dispatch error_handler kwargs req)) =
    [EvErrorHandler (as_http_error exc)] /\
  forall h, In h builtin_handlers ->
    (forall rq rs e, exists rs',
        h rq rs e = Returned rs' /\
        Response.status_code rs' = Some (HTTPError.status_code e)) /\
    exists res,
      snd (convert_exception_to_response dispatch (Some h) kwargs req) =
        Returned res /\
      Response.status_code res =
        Some (HTTPError.status_code (as_http_error exc)).
Proof.
  intros Hd Hc.
  assert (Hcalls : List.filter is_handler_call
            (fst (convert_exception_to_response dispatch error_handler
                    kwargs req)) = [EvErrorHandler (as_http_error exc)]).
  { rewrite convert_unfold. unfold inner. rewrite Hd, Hc.
    apply _to_res_calls_handler_once. }
  split; [unfold handler_calls; now rewrite Hcalls|].
  split; [exact Hcalls|].
  intros h Hin.
  assert (Hs : handler_sets_status h).
  { pose proof builtin_handlers_set_status as Hall.
    rewrite Forall_forall in Hall. apply Hall. now apply list_elem_of_In. }
  split; [exact Hs|].
  rewrite convert_unfold. simpl default.
  rewrite (inner_caught dispatch kwargs req h exc Hd Hc).
  destruct (Hs req (Response.new req kwargs) (as_http_error exc))
    as (res & Hh & Hst).
  rewrite (_to_res_http_returned _ _ _ _ _ Hh). eauto.
Qed.

Lemma one_formatter_call_per_error_witness :
  handler_calls
    (fst (convert_exception_to_response (titles := demo_titles)
            (raising_dispatch (ExcOther "ZeroDivisionError"))
            (Some broken_handler) [] demo_req)) = 1%nat.
Proof.
  apply (one_formatter_call_per_error (titles := demo_titles)
           (raising_dispatch (ExcOther "ZeroDivisionError"))
           (Some broken_handler) [] demo_req (ExcOther "ZeroDivisionError"));
    reflexivity.
Defined.

(** C4, as stated, fails: a request whose inner handler raises an
    exception outside the [Exception] hierarchy has errored, yet no
    formatter runs for it; the exception passes through. *)
Lemma cancelled_request_reaches_no_formatter :
  raising_dispatch (ExcBase "CancelledError") demo_req =
    Raised (ExcBase "CancelledError") /\
  convert_exception_to_response (titles := demo_titles)
    (raising_dispatch (ExcBase "CancelledError")) (Some error_to_html) []
    demo_req = ([], Raised (ExcBase "CancelledError")) /\
  handler_calls
    (fst (convert_exception_to_response (titles := demo_titles)
            (raising_dispatch (ExcBase "CancelledError"))
            (Some error_to_html) [] demo_req)) = 0%nat.
Proof. repeat split. Qed.

(** ** Flattening the recursion *)

(** C5.  The recursive [_to_res] and the single non-recursive branch give
    the same outcome (response or exception) and the same events, for
    every exception, every error handler and every request. *)
Theorem _to_res_flat_equiv `{titles : StatusTitles}
    (req : Request) (exc : PyException) (error_handler : ErrorHandler)
    (kwargs : Kwargs) :
  _to_res req exc error_handler kwargs =
  _to_res_flat req exc error_handler kwargs.
Proof.
  rewrite _to_res_as_http_error. simp _to_res. reflexivity.
Qed.

(** ** The default handler *)

(** C6.  With no error handler supplied, the wrapped handler is the one
    built with [error_to_text], and the body of the response to a caught
    exception is the text encoding of the structured error. *)
Theorem default_handler_is_text `{titles : StatusTitles}
    (dispatch : Dispatch) (kwargs : Kwargs) (req : Request)
    (exc : PyException) :
  dispatch req = Raised exc ->
  is_Exception exc = true ->
  convert_exception_to_response dispatch None kwargs req =
    convert_exception_to_response dispatch (Some error_to_text) kwargs req /\
  snd (convert_exception_to_response dispatch None kwargs req) =
    Returned
      (Response.mk req kwargs
         (Some (HTTPError.status_code (as_http_error exc)))
         (TextBody (text_encoding (HTTPError.title (as_http_error exc))
                                  (HTTPError.detail (as_http_error exc))))).
Proof.
  intros Hd Hc. split; [reflexivity|].
  rewrite convert_unfold. simpl default.
  rewrite (inner_caught dispatch kwargs req _ exc Hd Hc).
  rewrite (_to_res_http_returned req error_to_text kwargs _ _ eq_refl).
  simpl. do 3 f_equal.
  destruct (HTTPError.detail (as_http_error exc)) as [[|ch d]|]; reflexivity.
Qed.

Lemma default_handler_is_text_witness :
  snd (convert_exception_to_response (titles := demo_titles)
         (raising_dispatch (ExcHTTPError bad_request)) None [] demo_req) =
    Returned
      (Response.mk demo_req [] (Some 400)
         (TextBody ("Bad Request" +:+ NL +:+ "missing field x"))).
Proof.
  apply (default_handler_is_text (titles := demo_titles)
           (raising_dispatch (ExcHTTPError bad_request)) [] demo_req
           (ExcHTTPError bad_request)); reflexivity.
Defined.

(** ** The three encodings *)

Lemma media_insert_order (status : Z) (title d : string) :
  <["detail" := MStr d]>
    (<["status" := MInt status]> (<["error" := MStr title]> ∅)) =@{gmap string MediaValue}
  {[ "error" := MStr title; "status" := MInt status; "detail" := MStr d ]}.
Proof.
  rewrite <- insert_empty.
  rewrite (insert_insert_ne _ "detail" "status") by discriminate.
  rewrite (insert_insert_ne _ "detail" "error") by discriminate.
  rewrite (insert_insert_ne _ "status" "error") by discriminate.
  reflexivity.
Qed.

Lemma media_encoding_detail_key (status : Z) (title : string)
    (detail : option string) :
  is_Some (media_encoding status title detail !! "detail") <->
  truthy detail = true.
Proof.
  assert (Hnone : ({[ "error" := MStr title; "status" := MInt status ]}
                     : gmap string MediaValue) !! "detail" = None).
  { now rewrite lookup_insert_ne, lookup_singleton_ne by discriminate. }
  unfold media_encoding.
  destruct detail as [[|ch d]|]; simpl; rewrite ?Hnone.
  - split; [intros [v Hv]|]; discriminate.
  - split; [reflexivity | intros _].
    rewrite lookup_insert_ne, lookup_insert_ne, lookup_singleton_eq
      by discriminate.
    eauto.
  - split; [intros [v Hv]|]; discriminate.
Qed.

(** C7.  [error_to_html] on title "Not Found", no detail, status 404
    gives the body [<h1>Not Found</h1>] and the status 404; in general the
    body is [<h1>{title}</h1>], followed by a newline and
    [<p>{detail}</p>] exactly when the detail is truthy. *)
Theorem error_to_html_encoding (req : Request) (res : Response.t) :
  error_to_html req res (HTTPError.mk 404 "Not Found" None) =
    Returned (Response.mk (Response.request res) (Response.kwargs res)
                (Some 404) (HtmlBody "<h1>Not Found</h1>")) /\
  forall exc : HTTPError.t,
    error_to_html req res exc =
      Returned (Response.mk (Response.request res) (Response.kwargs res)
                  (Some (HTTPError.status_code exc))
                  (HtmlBody (html_encoding (HTTPError.title exc)
                                           (HTTPError.detail exc)))).
Proof.
  split; [reflexivity|].
  intros [status title [[|ch d]|]]; try reflexivity.
  unfold error_to_html, html_encoding; simpl.
  unfold Response.set_html, Response.set_body; simpl.
  now rewrite !append_assoc.
Qed.

(** C8.  [error_to_media] on title "Bad Request", detail
    "missing field x", status 400 gives the mapping
    [{"error": "Bad Request", "status": 400, "detail": "missing field x"}]
    and the status 400; in general the mapping holds the title under
    "error", the status code under "status", and a "detail" key exactly
    when the detail is truthy. *)
Theorem error_to_media_encoding (req : Request) (res : Response.t) :
  error_to_media req res
    (HTTPError.mk 400 "Bad Request" (Some "missing field x")) =
    Returned (Response.mk (Response.request res) (Response.kwargs res)
                (Some 400)
                (MediaBody {[ "error" := MStr "Bad Request";
                              "status" := MInt 400;
                              "detail" := MStr "missing field x" ]})) /\
  forall exc : HTTPError.t, exists media : gmap string MediaValue,
    error_to_media req res exc =
      Returned (Response.mk (Response.request res) (Response.kwargs res)
                  (Some (HTTPError.status_code exc)) (MediaBody media)) /\
    media = media_encoding (HTTPError.status_code exc) (HTTPError.title exc)
              (HTTPError.detail exc) /\
    media !! "error" = Some (MStr (HTTPError.title exc)) /\
    media !! "status" = Some (MInt (HTTPError.status_code exc)) /\
    (is_Some (media !! "detail") <-> truthy (HTTPError.detail exc) = true) /\
    (truthy (HTTPError.detail exc) = true ->
     media !! "detail" = MStr <$> HTTPError.detail exc).
Proof.
  assert (Hgen : forall exc : HTTPError.t,
    error_to_media req res exc =
      Returned (Response.mk (Response.request res) (Response.kwargs res)
                  (Some (HTTPError.status_code exc))
                  (MediaBody (media_encoding (HTTPError.status_code exc)
                                (HTTPError.title exc) (HTTPError.detail exc))))).
  { intros [status title [[|ch d]|]];
      unfold error_to_media, media_encoding, Response.set_media,
        Response.set_body; simpl.
    - now rewrite insert_empty.
    - now rewrite media_insert_order.
    - now rewrite insert_empty. }
  split; [apply (Hgen (HTTPError.mk 400 "Bad Request" (Some "missing field x")))|].
  intros exc. eexists. split; [apply Hgen|]. split; [reflexivity|].
  destruct exc as [status title detail]; simpl.
  split; [|split; [|split]].
  - unfold media_encoding. destruct detail as [[|ch d]|];
      now rewrite lookup_insert_eq.
  - unfold media_encoding. destruct detail as [[|ch d]|];
      rewrite lookup_insert_ne by discriminate;
      first [now rewrite lookup_singleton_eq | now rewrite lookup_insert_eq].
  - apply media_encoding_detail_key.
  - destruct detail as [[|ch d]|]; simpl; try discriminate. intros _.
    now rewrite lookup_insert_ne, lookup_insert_ne, lookup_singleton_eq
      by discriminate.
Qed.

(** C9.  [error_to_text] on title "Forbidden", no detail, status 403
    gives the body "Forbidden" and the status 403; in general the body is
    the title, followed by a newline and the detail exactly when the
    detail is truthy. *)
Theorem error_to_text_encoding (req : Request) (res : Response.t) :
  error_to_text req res (HTTPError.mk 403 "Forbidden" None) =
    Returned (Response.mk (Response.request res) (Response.kwargs res)
                (Some 403) (TextBody "Forbidden")) /\
  forall exc : HTTPError.t,
    error_to_text req res exc =
      Returned (Response.mk (Response.request res) (Response.kwargs res)
                  (Some (HTTPError.status_code exc))
                  (TextBody (text_encoding (HTTPError.title exc)
                                           (HTTPError.detail exc)))).
Proof.
  split; [reflexivity|].
  intros [status title [[|ch d]|]]; reflexivity.
Qed.

(** C10.  An [HTTPError] whose detail is the empty string is rendered by
    each of the three built-in handlers exactly as one with no detail:
    no [<p>] element, no "detail" key, no trailing newline. *)
Theorem empty_detail_is_no_detail (req : Request) (res : Response.t)
    (status : Z) (title : string) :
  (error_to_html req res (HTTPError.mk status title (Some "")) =
     error_to_html req res (HTTPError.mk status title None) /\
   error_to_media req res (HTTPError.mk status title (Some "")) =
     error_to_media req res (HTTPError.mk status title None) /\
   error_to_text req res (HTTPError.mk status title (Some "")) =
     error_to_text req res (HTTPError.mk status title None)) /\
  error_to_html req res (HTTPError.mk status title (Some "")) =
    Returned (Response.mk (Response.request res) (Response.kwargs res)
                (Some status) (HtmlBody ("<h1>" +:+ title +:+ "</h1>"))) /\
  (exists media : gmap string MediaValue,
     error_to_media req res (HTTPError.mk status title (Some "")) =
       Returned (Response.mk (Response.request res) (Response.kwargs res)
                   (Some status) (MediaBody media)) /\
     media !! "detail" = None /\
     dom media = {[ "error"; "status" ]}) /\
  error_to_text req res (HTTPError.mk status title (Some "")) =
    Returned (Response.mk (Response.request res) (Response.kwargs res)
                (Some status) (TextBody title)).
Proof.
  repeat split; try reflexivity.
  exists (<["status" := MInt status]> (<["error" := MStr title]> ∅)).
  split; [reflexivity|]. split.
  - now rewrite !lookup_insert_ne, lookup_empty by discriminate.
  - rewrite !dom_insert_L, dom_empty_L. set_solver.
Qed.

(** * Further properties of the layer *)

(** ** What the wrapper leaves alone *)

(** X1.  When the inner handler returns, the wrapped handler returns that
    very response: the error handler is not called and nothing is printed,
    whichever error handler was configured. *)
Theorem success_passes_through `{titles : StatusTitles}
    (dispatch : Dispatch) (error_handler : option ErrorHandler)
    (kwargs : Kwargs) (req : Request) (res : Response.t) :
  dispatch req = Returned res ->
  convert_exception_to_response dispatch error_handler kwargs req =
    ([], Returned res).
Proof.
  intros Hd. rewrite convert_unfold. unfold inner. now rewrite Hd.
Qed.

Lemma success_passes_through_witness :
  convert_exception_to_response (titles := demo_titles)
    (returning_dispatch (Response.mk demo_req [] (Some 200) (TextBody "ok")))
    (Some broken_handler) [] demo_req =
    ([], Returned (Response.mk demo_req [] (Some 200) (TextBody "ok"))).
Proof.
  apply (success_passes_through (titles := demo_titles)
           (returning_dispatch
              (Response.mk demo_req [] (Some 200) (TextBody "ok")))
           (Some broken_handler) [] demo_req).
  reflexivity.
Defined.

(** X2.  An exception outside the [Exception] hierarchy is not caught: it
    leaves the wrapped handler unchanged, the error handler is not called
    and nothing is printed. *)
Theorem base_exception_propagates `{titles : StatusTitles}
    (dispatch : Dispatch) (error_handler : option ErrorHandler)
    (kwargs : Kwargs) (req : Request) (exc : PyException) :
  dispatch req = Raised exc ->
  is_Exception exc = false ->
  convert_exception_to_response dispatch error_handler kwargs req =
    ([], Raised exc).
Proof.
  intros Hd Hc. rewrite convert_unfold. now apply inner_not_caught.
Qed.

Lemma base_exception_propagates_witness :
  convert_exception_to_response (titles := demo_titles)
    (raising_dispatch (ExcBase "SystemExit")) (Some error_to_html) []
    demo_req = ([], Raised (ExcBase "SystemExit")).
Proof.
  apply (base_exception_propagates (titles := demo_titles)
           (raising_dispatch (ExcBase "SystemExit")) (Some error_to_html) []
           demo_req (ExcBase "SystemExit")); reflexivity.
Defined.

(** ** What the wrapper hands to the error handler *)

(** X3.  For a caught exception the outcome of the wrapped handler is the
    outcome of the error handler, called on the request at hand, on a
    fresh [Response(req, **kwargs)] and on the structured error: nothing
    else decides the response, and an exception of the error handler is
    the exception of the wrapped handler. *)
Theorem outcome_is_handler_outcome `{titles : StatusTitles}
    (dispatch : Dispatch) (error_handler : option ErrorHandler)
    (kwargs : Kwargs) (req : Request) (exc : PyException) :
  dispatch req = Raised exc ->
  is_Exception exc = true ->
  snd (convert_exception_to_response dispatch error_handler kwargs req) =
    default error_to_text error_handler req (Response.new req kwargs)
      (as_http_error exc).
Proof.
  intros Hd Hc. rewrite convert_unfold.
  rewrite (inner_caught dispatch kwargs req _ exc Hd Hc).
  destruct (default error_to_text error_handler req (Response.new req kwargs)
              (as_http_error exc)) as [res|x] eqn:Hh.
  - now rewrite (_to_res_http_returned _ _ _ _ _ Hh).
  - now rewrite (_to_res_http_raised _ _ _ _ _ Hh).
Qed.

Lemma outcome_is_handler_outcome_witness :
  snd (convert_exception_to_response (titles := demo_titles)
         (raising_dispatch (ExcHTTPError not_found)) (Some teapot_handler)
         [("media_type", "text/plain")] demo_req) =
    teapot_handler demo_req
      (Response.new demo_req [("media_type", "text/plain")]) not_found.
Proof.
  apply (outcome_is_handler_outcome (titles := demo_titles)
           (raising_dispatch (ExcHTTPError not_found)) (Some teapot_handler)
           [("media_type", "text/plain")] demo_req (ExcHTTPError not_found));
    reflexivity.
Defined.

(** ** When the traceback is printed *)

(** X4.  With an error handler that returns, the traceback of a caught
    exception is printed once when the status code of the structured
    error is 500 and not at all otherwise.  This covers an [HTTPError]
    raised with status 500 on purpose. *)
Theorem traced_iff_status_500 `{titles : StatusTitles}
    (dispatch : Dispatch) (error_handler : option ErrorHandler)
    (kwargs : Kwargs) (req : Request) (exc : PyException) :
  handler_returns (default error_to_text error_handler) ->
  dispatch req = Raised exc ->
  is_Exception exc = true ->
  traces (fst (convert_exception_to_response dispatch error_handler
                 kwargs req)) =
    if HTTPError.status_code (as_http_error exc) =? 500 then 1%nat else 0%nat.
Proof.
  intros Hret Hd Hc. rewrite convert_unfold.
  rewrite (inner_caught dispatch kwargs req _ exc Hd Hc).
  destruct (Hret req (Response.new req kwargs) (as_http_error exc))
    as (res & Hh).
  rewrite (_to_res_http_returned _ _ _ _ _ Hh).
  destruct (HTTPError.status_code (as_http_error exc) =? 500); reflexivity.
Qed.

Lemma traced_iff_status_500_witness :
  traces (fst (convert_exception_to_response (titles := demo_titles)
                 (raising_dispatch (ExcHTTPError server_error))
                 (Some error_to_media) [] demo_req)) = 1%nat.
Proof.
  apply (traced_iff_status_500 (titles := demo_titles)
           (raising_dispatch (ExcHTTPError server_error))
           (Some error_to_media) [] demo_req (ExcHTTPError server_error)).
  - intros rq rs e. eexists. reflexivity.
  - reflexivity.
  - reflexivity.
Defined.

(** X5.  When the error handler raises, its exception leaves the wrapped
    handler in place of the one that was being handled, and the traceback
    is not printed, not even for a status of 500: [traceback.print_exc()]
    comes after the call of the handler. *)
Theorem handler_exception_escapes_untraced `{titles : StatusTitles}
    (dispatch : Dispatch) (error_handler : option ErrorHandler)
    (kwargs : Kwargs) (req : Request) (exc x : PyException) :
  dispatch req = Raised exc ->
  is_Exception exc = true ->
  default error_to_text error_handler req (Response.new req kwargs)
    (as_http_error exc) = Raised x ->
  convert_exception_to_response dispatch error_handler kwargs req =
    ([EvErrorHandler (as_http_error exc)], Raised x) /\
  traces (fst (convert_exception_to_response dispatch error_handler
                 kwargs req)) = 0%nat.
Proof.
  intros Hd Hc Hh. rewrite convert_unfold.
  rewrite (inner_caught dispatch kwargs req _ exc Hd Hc).
  rewrite (_to_res_http_raised _ _ _ _ _ Hh). split; reflexivity.
Qed.

Lemma handler_exception_escapes_untraced_witness :
  convert_exception_to_response (titles := demo_titles)
    (raising_dispatch (ExcHTTPError server_error)) (Some broken_handler) []
    demo_req = ([EvErrorHandler server_error], Raised (ExcOther "TypeError")).
Proof.
  apply (handler_exception_escapes_untraced (titles := demo_titles)
           (raising_dispatch (ExcHTTPError server_error))
           (Some broken_handler) [] demo_req (ExcHTTPError server_error)
           (ExcOther "TypeError")); reflexivity.
Defined.

(** ** What an unknown error gives away *)



(** ** The shape of the event log *)

(** Settles the two counts of a log that is known in full. *)
Ltac log_counts :=
  unfold handler_calls, traces; simpl; split; [lia | split; [lia|]].

(** X8.  Whatever the inner handler and the error handler do, one call of
    the wrapped handler calls the error handler at most once and prints
    at most one traceback, never a traceback without a call of the error
    handler before it, and only for a structured error of status 500. *)
Theorem event_log_shape `{titles : StatusTitles}
    (dispatch : Dispatch) (error_handler : option ErrorHandler)
    (kwargs : Kwargs) (req : Request) :
  (handler_calls (fst (convert_exception_to_response dispatch error_handler
                         kwargs req)) <= 1)%nat /\
  (traces (fst (convert_exception_to_response dispatch error_handler
                  kwargs req)) <=
   handler_calls (fst (convert_exception_to_response dispatch error_handler
                         kwargs req)))%nat /\
  (fst (convert_exception_to_response dispatch error_handler kwargs req) = [] \/
   exists e : HTTPError.t,
     fst (convert_exception_to_response dispatch error_handler kwargs req) =
       [EvErrorHandler e] \/
     (HTTPError.status_code e = 500 /\
      fst (convert_exception_to_response dispatch error_handler kwargs req) =
        [EvErrorHandler e; EvPrintExc])).
Proof.
  rewrite convert_unfold.
  destruct (dispatch req) as [res|exc] eqn:Hd.
  { unfold inner. rewrite Hd. log_counts. now left. }
  destruct (is_Exception exc) eqn:Hc.
  2: { rewrite (inner_not_caught dispatch kwargs req _ exc Hd Hc).
       log_counts. now left. }
  rewrite (inner_caught dispatch kwargs req _ exc Hd Hc).
  destruct (default error_to_text error_handler req (Response.new req kwargs)
              (as_http_error exc)) as [res|x] eqn:Hh.
  - rewrite (_to_res_http_returned _ _ _ _ _ Hh).
    destruct (HTTPError.status_code (as_http_error exc) =? 500) eqn:Hs.
    + apply Z.eqb_eq in Hs. log_counts. right. eauto.
    + log_counts. right. eauto.
  - rewrite (_to_res_http_raised _ _ _ _ _ Hh). log_counts. right. eauto.
Qed.

(** ** Wrapping twice *)

(** X9.  Wrapping a handler that is already wrapped with an error handler
    that returns changes nothing: the outer layer hands on the outcome of
    the inner one, calls no error handler and prints nothing, whatever
    error handler and keyword arguments it was given. *)
Theorem wrapping_twice_changes_nothing `{titles : StatusTitles}
    (dispatch : Dispatch) (h1 h2 : option ErrorHandler)
    (kw1 kw2 : Kwargs) (req : Request) :
  handler_returns (default error_to_text h1) ->
  convert_exception_to_response
    (as_dispatch (convert_exception_to_response dispatch h1 kw1)) h2 kw2 req =
    ([], snd (convert_exception_to_response dispatch h1 kw1 req)).
Proof.
  intros Hret. rewrite (convert_unfold _ kw2 req h2).
  unfold inner at 1, as_dispatch. rewrite (convert_unfold _ kw1 req h1).
  destruct (inner_contains dispatch kw1 req _ Hret)
    as [(res & Hres) | (exc & _ & Hc & Hraised)].
  - now rewrite Hres.
  - rewrite Hraised. simpl. now rewrite Hc.
Qed.

Lemma wrapping_twice_changes_nothing_witness :
  convert_exception_to_response (titles := demo_titles)
    (as_dispatch
       (convert_exception_to_response (titles := demo_titles)
          (raising_dispatch (ExcHTTPError not_found)) (Some error_to_html) []))
    (Some error_to_media) [] demo_req =
    ([], Returned (Response.mk demo_req [] (Some 404)
                     (HtmlBody "<h1>Not Found</h1>"))).
Proof.
  apply (wrapping_twice_changes_nothing (titles := demo_titles)
           (raising_dispatch (ExcHTTPError not_found))
           (Some error_to_html) (Some error_to_media) [] [] demo_req).
  intros rq rs e. eexists. reflexivity.
Defined.

(** X10.  An exception of the [Exception] hierarchy raised by the error
    handler of an inner layer is an error like any other for an outer
    layer: the outer error handler is called on it, on a fresh response. *)
Theorem outer_layer_handles_handler_failure `{titles : StatusTitles}
    (dispatch : Dispatch) (h1 h2 : option ErrorHandler)
    (kw1 kw2 : Kwargs) (req : Request) (exc x : PyException) :
  dispatch req = Raised exc ->
  is_Exception exc = true ->
  default error_to_text h1 req (Response.new req kw1) (as_http_error exc) =
    Raised x ->
  is_Exception x = true ->
  snd (convert_exception_to_response
         (as_dispatch (convert_exception_to_response dispatch h1 kw1))
         h2 kw2 req) =
    default error_to_text h2 req (Response.new req kw2) (as_http_error x).
Proof.
  intros Hd Hc Hh Hx.
  assert (Hin : as_dispatch (convert_exception_to_response dispatch h1 kw1)
                  req = Raised x).
  { unfold as_dispatch. rewrite convert_unfold.
    rewrite (inner_caught dispatch kw1 req _ exc Hd Hc).
    now rewrite (_to_res_http_raised _ _ _ _ _ Hh). }
  rewrite convert_unfold.
  rewrite (inner_caught _ kw2 req _ x Hin Hx).
  destruct (default error_to_text h2 req (Response.new req kw2)
              (as_http_error x)) as [res|y] eqn:Hh2.
  - now rewrite (_to_res_http_returned _ _ _ _ _ Hh2).
  - now rewrite (_to_res_http_raised _ _ _ _ _ Hh2).
Qed.

Lemma outer_layer_handles_handler_failure_witness :
  snd (convert_exception_to_response (titles := demo_titles)
         (as_dispatch
            (convert_exception_to_response (titles := demo_titles)
               (raising_dispatch (ExcHTTPError not_found))
               (Some broken_handler) []))
         None [] demo_req) =
    Returned (Response.mk demo_req [] (Some 500)
                (TextBody "Internal Server Error")).
Proof.
  apply (outer_layer_handles_handler_failure (titles := demo_titles)
           (raising_dispatch (ExcHTTPError not_found))
           (Some broken_handler) None [] [] demo_req
           (ExcHTTPError not_found) (ExcOther "TypeError")); reflexivity.
Defined.

(** ** Reading an error back from the structured body *)

Lemma error_to_media_body (req : Request) (res : Response.t)
    (exc : HTTPError.t) :
  error_to_media req res exc =
    Returned (Response.mk (Response.request res) (Response.kwargs res)
                (Some (HTTPError.status_code exc))
                (MediaBody (media_encoding (HTTPError.status_code exc)
                              (HTTPError.title exc) (HTTPError.detail exc)))).
Proof.
  destruct exc as [status title [[|ch d]|]];
    unfold error_to_media, media_encoding, Response.set_media,
      Response.set_body; simpl.
  - now rewrite insert_empty.
  - now rewrite media_insert_order.
  - now rewrite insert_empty.
Qed.

Lemma media_encoding_lookup_error (status : Z) (title : string)
    (detail : option string) :
  media_encoding status title detail !! "error" = Some (MStr title).
Proof.
  unfold media_encoding.
  destruct detail as [[|ch d]|]; now rewrite lookup_insert_eq.
Qed.

Lemma media_encoding_lookup_detail (status : Z) (title : string)
    (detail : option string) :
  media_encoding status title detail !! "detail" =
    MStr <$> rendered_detail detail.
Proof.
  unfold media_encoding, rendered_detail.
  destruct detail as [[|ch d]|]; simpl.
  - now rewrite lookup_insert_ne, lookup_singleton_ne by discriminate.
  - now rewrite lookup_insert_ne, lookup_insert_ne, lookup_singleton_eq
      by discriminate.
  - now rewrite lookup_insert_ne, lookup_singleton_ne by discriminate.
Qed.

(** X11.  The mapping built by [error_to_media] loses nothing that the
    handlers render: two errors with the same response have the same
    status code, the same title and the same detail, up to a falsy
    detail ([None] or the empty string) counting as none. *)
Theorem error_to_media_injective (req : Request) (res : Response.t)
    (e1 e2 : HTTPError.t) :
  error_to_media req res e1 = error_to_media req res e2 ->
  HTTPError.status_code e1 = HTTPError.status_code e2 /\
  HTTPError.title e1 = HTTPError.title e2 /\
  rendered_detail (HTTPError.detail e1) =
    rendered_detail (HTTPError.detail e2).
Proof.
  rewrite !error_to_media_body. intros Heq.
  injection Heq as Hstatus Hmedia.
  split; [exact Hstatus|]. split.
  - pose proof (f_equal (fun m => m !! "error") Hmedia) as He. simpl in He.
    rewrite !media_encoding_lookup_error in He. congruence.
  - pose proof (f_equal (fun m => m !! "detail") Hmedia) as Hdt. simpl in Hdt.
    rewrite !media_encoding_lookup_detail in Hdt.
    destruct (rendered_detail (HTTPError.detail e1)),
             (rendered_detail (HTTPError.detail e2));
      simpl in Hdt; congruence.
Qed.

Lemma error_to_media_injective_witness :
  rendered_detail (Some "") = rendered_detail None.
Proof.
  apply (error_to_media_injective demo_req (Response.new demo_req [])
           (HTTPError.mk 400 "Bad Request" (Some ""))
           (HTTPError.mk 400 "Bad Request" None)).
  reflexivity.
Defined.
